(** * ofxCGAL: the point-cloud pipeline of [src/ofxCGAL.cpp]

    The seven functions of namespace [ofxCGAL] are thin orchestration over
    the CGAL point-set-processing and surface-reconstruction routines.  The
    embedding keeps that shape: every function is a finite program that
    issues library calls and continues with the library's answer
    ([prog], a free monad over the signature [call]); the C++ code between
    the calls ([erase], [resize], the copy loop, the tuning constants, the
    early returns) is executed by the program itself.  A [handler] gives the
    library's answers; theorems quantify over handlers, and [trace] records
    which calls a run issued and with which arguments.

    Timing and logging ([ofGetElapsedTimeMillis], [ofLogVerbose],
    [ofLogNotice]) are instrumentation and are left out. *)

From Stdlib Require Import List ZArith Lia Bool Floats Permutation.
Import ListNotations.

Set Implicit Arguments.

(** ** The types of [ofxCGAL.h]

    The header is not part of the sources at hand, so the kernel and the
    opaque library objects are parameters.  [FT] is the kernel's number
    type; the source builds [FT] values from [double] and [int] literals
    and combines them with [*], [/] and [std::sqrt]. *)

Class Kernel : Type := {
  FT : Type;
  FT_of_double : float -> FT;
  FT_of_int : Z -> FT;
  FT_mul : FT -> FT -> FT;
  FT_div : FT -> FT -> FT;
  FT_sqrt : FT -> FT;
  Point_3 : Type;
  Vector_3 : Type;
  (** [Point_3()] and [Vector_3()], as [resize] value-initialises them. *)
  Point_3_default : Point_3;
  Vector_3_default : Vector_3;
  Point_with_normal : Type;
  Poisson_reconstruction_function : Type;
  (** The 3D Delaunay triangulation [STr] with the complex [C2t3] over it. *)
  STr : Type;
  STr_default : STr;
  Polyhedron_3 : Type;
  (** What a library routine throws when it rejects a call. *)
  exception : Type
}.

Section Pipeline.

Context {K : Kernel}.

Definition PointList := list Point_3.
Definition PointVectorPair := (Point_3 * Vector_3)%type.
Definition PointVectorList := list PointVectorPair.
Definition PointWNList := list Point_with_normal.

Record Sphere_3 : Type := { center : Point_3; squared_radius : FT }.

(** [Surface_3 surface(function, sphere, error_bound)]. *)
Record Surface_3 : Type := {
  surface_function : Poisson_reconstruction_function;
  surface_bounding_sphere : Sphere_3;
  surface_error_bound : FT
}.

(** [Surface_mesh_default_criteria_3<STr> criteria(angle, radius, distance)]. *)
Record Criteria : Type := {
  angle_bound : FT;
  radius_bound : FT;
  distance_bound : FT
}.

(** The five point-set routines receive the caller's parameters
    (neighbourhood size, percentage, cell size) and either return or throw;
    the wrappers have no [try], so a thrown exception leaves the wrapper at
    the call.  The calls of the reconstruction are followed on their
    returning paths. *)
Inductive outcome (A : Type) : Type :=
| Returned (a : A)
| Thrown (e : exception).

Arguments Thrown {A} e.

(** ** The library calls the source makes

    A routine that works in place on an iterator range [first, beyond)
    answers with the content of the range when it is done, and with its
    return value (an iterator is the offset from [first]). *)
Inductive call : Type -> Type :=
| remove_outliers (range : PointList) (k : Z) (threshold_percent : float)
    : call (PointList * outcome nat)
| grid_simplify_point_set (range : PointList) (epsilon : float)
    : call (PointList * outcome nat)
| jet_smooth_point_set (range : PointList) (k : Z)
    : call (PointList * outcome unit)
| pca_estimate_normals (range : PointVectorList) (k : Z)
    : call (PointVectorList * outcome unit)
| mst_orient_normals (range : PointVectorList) (k : Z)
    : call (PointVectorList * outcome nat)
| compute_average_spacing (range : PointList) (k : Z) : call FT
| compute_average_spacing_wn (range : PointWNList) (k : Z) : call FT
  (** [convert(src, dst)] is declared outside this file; both arguments
      are passed by reference. *)
| convert (src : PointVectorList) : call (PointVectorList * PointWNList)
| Poisson_function (points : PointWNList)
    : call Poisson_reconstruction_function
| compute_implicit_function (f : Poisson_reconstruction_function)
    : call (Poisson_reconstruction_function * bool)
| get_inner_point (f : Poisson_reconstruction_function) : call Point_3
| bounding_sphere (f : Poisson_reconstruction_function) : call Sphere_3
| make_surface_mesh (tr : STr) (surface : Surface_3) (criteria : Criteria)
    : call STr
| number_of_vertices (tr : STr) : call nat
| output_surface_facets_to_polyhedron (tr : STr) (polyhedron : Polyhedron_3)
    : call Polyhedron_3.

Inductive prog (R : Type) : Type :=
| Ret (r : R)
| Call (X : Type) (c : call X) (k : X -> prog R).

Arguments Call {R X} c k.

Notation "x <- c ;; k" := (Call c (fun x => k))
  (at level 61, c at next level, right associativity).
Notation "' pat <- c ;; k" := (Call c (fun x => match x with pat => k end))
  (at level 61, pat pattern, c at next level, right associativity).

(** [map_prog f p] runs [p] and hands [f] of its result on. *)
Fixpoint map_prog (A B : Type) (f : A -> B) (p : prog A) : prog B :=
  match p with
  | Ret a => Ret (f a)
  | Call c k => Call c (fun x => map_prog f (k x))
  end.

Definition handler : Type := forall X : Type, call X -> X.

Inductive invocation : Type :=
| Invoked (X : Type) (c : call X).

Arguments Invoked {X} c.

Fixpoint run (R : Type) (h : handler) (p : prog R) : R :=
  match p with
  | Ret r => r
  | Call c k => run h (k (h _ c))
  end.

Fixpoint trace (R : Type) (h : handler) (p : prog R) : list invocation :=
  match p with
  | Ret _ => []
  | Call c k => Invoked c :: trace h (k (h _ c))
  end.

(** ** [std::vector] operations used by the source *)

(** [v.erase(v.begin() + first, v.begin() + last)]. *)
Definition erase (A : Type) (v : list A) (first last : nat) : list A :=
  firstn first v ++ skipn last v.

(** [vector<T>(v).swap(v)]: a copy of the elements, capacity trimmed. *)
Definition swap_trick (A : Type) (v : list A) : list A := v.

(** [v.resize(n)] with value-initialised new elements. *)
Definition resize (A : Type) (d : A) (n : nat) (v : list A) : list A :=
  firstn n v ++ repeat d (n - length v).

(** [v[i].first = p]; the index is in range wherever the source uses it. *)
Fixpoint assign_first (i : nat) (p : Point_3) (v : PointVectorList)
  : PointVectorList :=
  match v, i with
  | [], _ => []
  | (_, n) :: t, O => (p, n) :: t
  | x :: t, S j => x :: assign_first j p t
  end.

(** ** The functions of namespace [ofxCGAL] *)

Definition removeOutliers (points : PointList) (removed_percentage : float)
    (nb_neighbors : Z) : prog (PointList * outcome unit) :=
  Call (remove_outliers points nb_neighbors removed_percentage)
    (fun '(range, first_to_remove) =>
       match first_to_remove with
       | Thrown e => Ret (range, Thrown e)
       | Returned it =>
           Ret (swap_trick (erase range it (length range)), Returned tt)
       end).

Definition simplifyCloud (points : PointList) (cell_size : float)
    : prog (PointList * outcome unit) :=
  Call (grid_simplify_point_set points cell_size)
    (fun '(range, first_to_remove) =>
       match first_to_remove with
       | Thrown e => Ret (range, Thrown e)
       | Returned it =>
           Ret (swap_trick (erase range it (length range)), Returned tt)
       end).

(** [for (int k=0; k<iter; k++) jet_smooth_point_set(...)], with [n]
    passes left; the loop makes [max iter 0] passes. *)
Fixpoint smooth_passes (n : nat) (points : PointList) (nb_neighbors : Z)
  : prog (PointList * outcome unit) :=
  match n with
  | O => Ret (points, Returned tt)
  | S m =>
      Call (jet_smooth_point_set points nb_neighbors)
        (fun '(range, r) =>
           match r with
           | Thrown e => Ret (range, Thrown e)
           | Returned _ => smooth_passes m range nb_neighbors
           end)
  end.

Definition smoothCloud (points : PointList) (nb_neighbors : Z) (iter : Z)
    : prog (PointList * outcome unit) :=
  smooth_passes (Z.to_nat iter) points nb_neighbors.

(** [for (int i=0; i<points.size(); i++) point_vectors[i].first = points[i];]
    from index [i], with [n] indices left.  The index is a natural number:
    the cloud is taken to be small enough for the [int] counter. *)
Fixpoint copy_positions (n i : nat) (points : PointList)
    (point_vectors : PointVectorList) : PointVectorList :=
  match n with
  | O => point_vectors
  | S m =>
      copy_positions m (S i) points
        (assign_first i (nth i points Point_3_default) point_vectors)
  end.

Definition estimateNormals (points : PointList)
    (point_vectors : PointVectorList) (nb_neighbors : Z)
    : prog (PointVectorList * outcome unit) :=
  let point_vectors :=
    resize (Point_3_default, Vector_3_default) (length points) point_vectors in
  let point_vectors :=
    copy_positions (length points) 0 points point_vectors in
  Call (pca_estimate_normals point_vectors nb_neighbors)
    (fun '(range, r) => Ret (range, r)).

Definition orientNormals (points : PointVectorList) (nb_neighbors : Z)
    (trim : bool) : prog (PointVectorList * outcome unit) :=
  Call (mst_orient_normals points nb_neighbors)
    (fun '(range, r) =>
       match r with
       | Thrown e => Ret (range, Thrown e)
       | Returned unoriented_points_begin =>
           if trim
           then Ret (erase range unoriented_points_begin (length range),
                     Returned tt)
           else Ret (range, Returned tt)
       end).

Definition computeAverageSpacing (points : PointList) (nb_neighbors : Z)
    : prog FT :=
  Call (compute_average_spacing points nb_neighbors) (fun s => Ret s).

(** [EXIT_FAILURE] of [<cstdlib>]. *)
Definition EXIT_FAILURE : Z := 1.

(** The statements of [reconstructPoissonSurface], ending in the caller's
    two objects and the operand of the [return] statement that was
    executed ([None] when control reaches the closing brace). *)
Definition reconstructPoissonSurface_body (point_vectors : PointVectorList)
    (polyhedron : Polyhedron_3)
    : prog (PointVectorList * Polyhedron_3 * option Z) :=
  '(point_vectors, points) <- convert point_vectors ;;
  (* Poisson options *)
  let sm_angle := FT_of_double 20 in
  let sm_radius := FT_of_int 30 in
  let sm_distance := FT_of_double 0.375 in
  function <- Poisson_function points ;;
  '(function, converged) <- compute_implicit_function function ;;
  if negb converged
  then Ret (point_vectors, polyhedron, Some EXIT_FAILURE)
  else
    average_spacing <- compute_average_spacing_wn points 6 ;;
    inner_point <- get_inner_point function ;;
    bsphere <- bounding_sphere function ;;
    let radius := FT_sqrt (squared_radius bsphere) in
    let sm_sphere_radius := FT_mul (FT_of_double 5) radius in
    let sm_dichotomy_error :=
      FT_div (FT_mul sm_distance average_spacing) (FT_of_double 1000) in
    let surface :=
      {| surface_function := function;
         surface_bounding_sphere :=
           {| center := inner_point;
              squared_radius := FT_mul sm_sphere_radius sm_sphere_radius |};
         surface_error_bound := FT_div sm_dichotomy_error sm_sphere_radius |} in
    let criteria :=
      {| angle_bound := sm_angle;
         radius_bound := FT_mul sm_radius average_spacing;
         distance_bound := FT_mul sm_distance average_spacing |} in
    tr <- make_surface_mesh STr_default surface criteria ;;
    vertices <- number_of_vertices tr ;;
    if Nat.eqb vertices 0
    then Ret (point_vectors, polyhedron, Some EXIT_FAILURE)
    else
      polyhedron <- output_surface_facets_to_polyhedron tr polyhedron ;;
      Ret (point_vectors, polyhedron, None).

(** The function is declared [void]: the operand of [return] does not
    reach the caller, who sees the two objects passed by reference. *)
Definition reconstructPoissonSurface (point_vectors : PointVectorList)
    (polyhedron : Polyhedron_3) : prog (PointVectorList * Polyhedron_3) :=
  map_prog fst (reconstructPoissonSurface_body point_vectors polyhedron).

(** ** Observations on a run *)

(** The criteria a library call was given, when it is the mesh generation. *)
Definition criteria_of (i : invocation) : list Criteria :=
  match i with
  | Invoked c =>
      match c with
      | make_surface_mesh _ _ criteria => [criteria]
      | _ => []
      end
  end.

(** The refinement criteria the reconstruction meshes with. *)
Definition criteria_used (h : handler) (point_vectors : PointVectorList)
    (polyhedron : Polyhedron_3) : list Criteria :=
  flat_map criteria_of
    (trace h (reconstructPoissonSurface point_vectors polyhedron)).

(** The oriented points the reconstruction works on, the answer of the
    implicit-function solve on them, and their average spacing. *)
Definition points_of (h : handler) (point_vectors : PointVectorList)
    : PointWNList :=
  snd (h _ (convert point_vectors)).

Definition solve_converges (h : handler) (point_vectors : PointVectorList)
    : bool :=
  snd (h _ (compute_implicit_function
              (h _ (Poisson_function (points_of h point_vectors))))).

Definition average_spacing_of (h : handler)
    (point_vectors : PointVectorList) : FT :=
  h _ (compute_average_spacing_wn (points_of h point_vectors) 6).

(** The points a filtering routine marks for removal: the suffix of the
    range from the iterator it returns; none when it throws. *)
Definition marked_for_removal (A : Type) (range : list A) (r : outcome nat)
    : list A :=
  match r with
  | Returned it => skipn it range
  | Thrown _ => []
  end.

Definition failed (A : Type) (r : outcome A) : Prop :=
  exists e, r = Thrown e.

(** ** What the library's interface gives

    The routines below receive the range as a pair of iterators, so they
    can overwrite elements but cannot change the vector's size; and
    [pca_estimate_normals] reads the points through a readable property
    map and stores the normals through a writable one. *)

Definition jet_smooth_in_place (h : handler) : Prop :=
  forall range k,
    length (fst (h _ (jet_smooth_point_set range k))) = length range.

Definition mst_orient_in_place (h : handler) : Prop :=
  forall range k,
    length (fst (h _ (mst_orient_normals range k))) = length range.

Definition pca_keeps_positions (h : handler) : Prop :=
  forall range k,
    map fst (fst (h _ (pca_estimate_normals range k))) = map fst range.


(** ** The grid clustering, from its description *)

Section Grid.

Variable Cell : Type.
Variable Cell_eq_dec : forall a b : Cell, {a = b} + {a <> b}.
(** The cube of side [epsilon] a point falls in. *)
Variable cell_of : float -> Point_3 -> Cell.

(** Modelled from the spec: the clustering pass of
    [CGAL::grid_simplify_point_set], which is not part of the sources at
    hand.  A point whose cell is not yet occupied is kept and occupies it,
    any other point is marked for removal. *)
Fixpoint grid_pass (epsilon : float) (occupied : list Cell)
    (range : PointList) : PointList * PointList :=
  match range with
  | [] => ([], [])
  | p :: rest =>
      if in_dec Cell_eq_dec (cell_of epsilon p) occupied
      then let (kept, removed) := grid_pass epsilon occupied rest in
           (kept, p :: removed)
      else let (kept, removed) :=
             grid_pass epsilon (cell_of epsilon p :: occupied) rest in
           (p :: kept, removed)
  end.

(** Modelled from the spec: [CGAL::grid_simplify_point_set] is a library
    routine and not part of the sources at hand.  Section 4.2: partition
    space into a uniform grid of cubes of side [s] and retain at most one
    representative point per occupied cell, deterministically for a fixed
    point ordering; the representative taken here is the first point of the
    cell.  The kept points are packed first and the iterator returned is
    the first point to remove, as [simplifyCloud] uses it. *)
Definition grid_simplify_spec (epsilon : float) (range : PointList)
    : PointList * outcome nat :=
  let (kept, removed) := grid_pass epsilon [] range in
  (kept ++ removed, Returned (length kept)).

Definition grid_simplify_as_specified (h : handler) : Prop :=
  forall range epsilon,
    PrimFloat.ltb 0 epsilon = true ->
    h _ (grid_simplify_point_set range epsilon)
    = grid_simplify_spec epsilon range.

End Grid.

(** ** Three statements of the specification, as it words them *)

(** The caller chooses the three tuning values and the mesh is refined
    with the chosen angle and with the two multipliers times the average
    spacing. *)
Definition criteria_follow_caller (h : handler) : Prop :=
  forall (sm_angle sm_radius sm_distance : FT) point_vectors polyhedron,
    solve_converges h point_vectors = true ->
    criteria_used h point_vectors polyhedron
    = [ {| angle_bound := sm_angle;
           radius_bound :=
             FT_mul sm_radius (average_spacing_of h point_vectors);
           distance_bound :=
             FT_mul sm_distance (average_spacing_of h point_vectors) |} ].


(** A neighbourhood size [k >= |cloud|] is rejected, or the neighbour
    statistics run with a [k] below the cloud size. *)
Definition rejects_or_clamps_neighbors (h : handler) : Prop :=
  forall points removed_percentage nb_neighbors,
    (Z.of_nat (length points) <= nb_neighbors)%Z ->
    failed (snd (run h (removeOutliers points removed_percentage nb_neighbors)))
    \/
    forall range k threshold_percent,
      In (Invoked (remove_outliers range k threshold_percent))
         (trace h (removeOutliers points removed_percentage nb_neighbors)) ->
      (k < Z.of_nat (length points))%Z.

End Pipeline.

Arguments Thrown {K A} e.
Arguments Ret {K R} r.
Arguments Call {K R X} c k.
Arguments Invoked {K X} c.

(** ** Further observations on a run *)

Section Observations.

Context {K : Kernel}.

(** The implicit surface a library call was given, when it is the mesh
    generation. *)
Definition surface_of (i : invocation) : list Surface_3 :=
  match i with
  | Invoked c =>
      match c with
      | make_surface_mesh _ surface _ => [surface]
      | _ => []
      end
  end.

Definition surfaces_used (h : handler) (point_vectors : PointVectorList)
    (polyhedron : Polyhedron_3) : list Surface_3 :=
  flat_map surface_of
    (trace h (reconstructPoissonSurface point_vectors polyhedron)).

(** The triangulation the mesh generation starts from and the one it
    answers with. *)
Definition mesh_of (h : handler) (i : invocation) : list (STr * STr) :=
  match i with
  | Invoked c =>
      match c with
      | make_surface_mesh tr surface criteria =>
          [(tr, h _ (make_surface_mesh tr surface criteria))]
      | _ => []
      end
  end.

Definition meshes_generated (h : handler) (point_vectors : PointVectorList)
    (polyhedron : Polyhedron_3) : list (STr * STr) :=
  flat_map (mesh_of h)
    (trace h (reconstructPoissonSurface point_vectors polyhedron)).

(** The mesh and the polyhedron of a facet output. *)
Definition facets_of (i : invocation) : list (STr * Polyhedron_3) :=
  match i with
  | Invoked c =>
      match c with
      | output_surface_facets_to_polyhedron tr polyhedron =>
          [(tr, polyhedron)]
      | _ => []
      end
  end.

Definition facets_written (h : handler) (point_vectors : PointVectorList)
    (polyhedron : Polyhedron_3) : list (STr * Polyhedron_3) :=
  flat_map facets_of
    (trace h (reconstructPoissonSurface point_vectors polyhedron)).

(** The cloud and neighbourhood size of an average-spacing request made
    on oriented points. *)
Definition spacing_of (i : invocation) : list (PointWNList * Z) :=
  match i with
  | Invoked c =>
      match c with
      | compute_average_spacing_wn range k => [(range, k)]
      | _ => []
      end
  end.

(** The function the solve leaves behind. *)
Definition solved_function (h : handler) (point_vectors : PointVectorList)
    : Poisson_reconstruction_function :=
  fst (h _ (compute_implicit_function
              (h _ (Poisson_function (points_of h point_vectors))))).

(** The range and neighbourhood size of a smoothing pass. *)
Definition smoothing_of (i : invocation) : list (PointList * Z) :=
  match i with
  | Invoked c =>
      match c with
      | jet_smooth_point_set range k => [(range, k)]
      | _ => []
      end
  end.

(** The two clustering routines are documented to reorder the points of
    the range, packing the remaining ones first: the range they leave is a
    permutation of the one they were given. *)
Definition remove_outliers_permutes (h : handler) : Prop :=
  forall range k threshold_percent,
    Permutation (fst (h _ (remove_outliers range k threshold_percent))) range.

Definition grid_simplify_permutes (h : handler) : Prop :=
  forall range epsilon,
    Permutation (fst (h _ (grid_simplify_point_set range epsilon))) range.

Definition jet_smooth_returns (h : handler) : Prop :=
  forall range k, snd (h _ (jet_smooth_point_set range k)) = Returned tt.

End Observations.

(** ** A kernel over [double] and a small library to run the programs on

    [sample_library] follows the interface of each routine (what it reads,
    what it overwrites, what it returns) with simple numerics; it checks no
    precondition, as a build of the library without precondition checks. *)

Module Sample.

Open Scope float_scope.

Definition point : Type := (float * float * float)%type.

#[export] Instance double_kernel : Kernel := {|
  FT := float;
  FT_of_double := fun d => d;
  FT_of_int := fun z => PrimFloat.of_uint63 (Uint63.of_Z z);
  FT_mul := PrimFloat.mul;
  FT_div := PrimFloat.div;
  FT_sqrt := PrimFloat.sqrt;
  Point_3 := point;
  Vector_3 := point;
  Point_3_default := (0, 0, 0);
  Vector_3_default := (0, 0, 0);
  Point_with_normal := (point * point)%type;
  Poisson_reconstruction_function := list (point * point);
  STr := list point;
  STr_default := [];
  Polyhedron_3 := list point;
  exception := unit
|}.

(** The integer part towards minus infinity; 0 for infinities and NaN. *)
Definition float_floor (f : float) : Z :=
  match Prim2SF f with
  | S754_finite false m e => Z.shiftl (Zpos m) e
  | S754_finite true m e => Z.shiftl (Zneg m) e
  | _ => 0%Z
  end.

Definition cell : Type := (Z * Z * Z)%type.

Definition cell_eq_dec (a b : cell) : {a = b} + {a <> b}.
Proof. repeat decide equality. Defined.

Definition cell_of (epsilon : float) (p : point) : cell :=
  let '(x, y, z) := p in
  (float_floor (x / epsilon), float_floor (y / epsilon),
   float_floor (z / epsilon)).

(** [int(double(n) * ((100.0 - threshold_percent) / 100.0))] points stay. *)
Definition first_index_to_remove (n : nat) (threshold_percent : float) : nat :=
  Z.to_nat (float_floor (PrimFloat.of_uint63 (Uint63.of_Z (Z.of_nat n))
                         * ((100 - threshold_percent) / 100))).

Definition midpoint (p q : point) : point :=
  let '(x, y, z) := p in
  let '(x', y', z') := q in
  ((x + x') / 2, (y + y') / 2, (z + z') / 2).

(** Each point moves half way to its successor in the range. *)
Fixpoint relax (range : list point) : list point :=
  match range with
  | p :: (q :: _) as rest => midpoint p q :: relax rest
  | _ => range
  end.

Definition has_normal (pv : point * point) : bool :=
  let '(nx, ny, nz) := snd pv in
  negb (PrimFloat.eqb nx 0 && PrimFloat.eqb ny 0 && PrimFloat.eqb nz 0).

Definition sample_library : handler :=
  fun X c =>
    match c in call X return X with
    | remove_outliers range _ threshold_percent =>
        (range,
         Returned (first_index_to_remove (length range) threshold_percent))
    | grid_simplify_point_set range epsilon =>
        grid_simplify_spec cell_eq_dec cell_of epsilon range
    | jet_smooth_point_set range _ => (relax range, Returned tt)
    | pca_estimate_normals range _ =>
        (map (fun pv => (fst pv, (0, 0, 1))) range, Returned tt)
    | mst_orient_normals range _ =>
        let (oriented, unoriented) := partition has_normal range in
        (oriented ++ unoriented, Returned (length oriented))
    | compute_average_spacing range _ => 0.5
    | compute_average_spacing_wn range _ => 0.5
    | convert src => (src, src)
    | Poisson_function points => points
    | compute_implicit_function f => (f, Nat.leb 4 (length f))
    | get_inner_point f => fst (hd ((0, 0, 0), (0, 0, 0)) f)
    | bounding_sphere f =>
        {| center := fst (hd ((0, 0, 0), (0, 0, 0)) f); squared_radius := 1 |}
    | make_surface_mesh _ surface _ => map fst (surface_function surface)
    | number_of_vertices tr => length tr
    | output_surface_facets_to_polyhedron tr polyhedron => polyhedron ++ tr
    end.

(** The same library with its precondition checks compiled in: a
    non-positive [epsilon] is rejected on entry, the range untouched. *)
Definition checking_library : handler :=
  fun X c =>
    match c in call X return X with
    | grid_simplify_point_set range epsilon =>
        if PrimFloat.ltb 0 epsilon
        then grid_simplify_spec cell_eq_dec cell_of epsilon range
        else (range, Thrown tt)
    | c => sample_library c
    end.

Definition p000 : point := (0, 0, 0).
Definition p100 : point := (1, 0, 0).
Definition p010 : point := (0, 1, 0).
Definition p001 : point := (0, 0, 1).
Definition up : point := (0, 0, 1).
Definition no_normal : point := (0, 0, 0).

Definition tetrahedron : PointVectorList :=
  [(p000, up); (p100, up); (p010, up); (p001, up)].

Definition half_oriented : PointVectorList :=
  [(p000, up); (p100, no_normal); (p010, up)].

Definition crowded : PointList :=
  [p000; p100; (0.5, 0.5, 0.5); (1.5, 0, 0); p010].

(** The sample library with a smoothing that rejects a neighbourhood size
    the range cannot supply. *)
Definition brittle_library : handler :=
  fun X c =>
    match c in call X return X with
    | jet_smooth_point_set range k =>
        if Z.leb (Z.of_nat (length range)) k
        then (range, Thrown tt)
        else (relax range, Returned tt)
    | c => sample_library c
    end.

(** The sample library with a mesh generation that refines nothing. *)
Definition barren_library : handler :=
  fun X c =>
    match c in call X return X with
    | make_surface_mesh tr _ _ => tr
    | c => sample_library c
    end.

End Sample.

(** * Properties of the pipeline *)

Section Properties.

Context {K : Kernel}.
Variable h : handler.
Arguments h : clear implicits.

(** Take the library's answer to the call the goal is waiting for. *)
Ltac library_answers :=
  match goal with
  | |- context [h ?X ?c] =>
      let range := fresh "range" in
      let it := fresh "it" in
      let e := fresh "e" in
      destruct (h X c) as [range [it | e]]; simpl
  end.

Lemma run_map_prog (A B : Type) (f : A -> B) (p : prog A) :
  run h (map_prog f p) = f (run h p).
Proof.
  induction p as [a | X c k IH]; simpl; [reflexivity | apply IH].
Qed.

Lemma trace_map_prog (A B : Type) (f : A -> B) (p : prog A) :
  trace h (map_prog f p) = trace h p.
Proof.
  induction p as [a | X c k IH]; simpl; [reflexivity | now rewrite IH].
Qed.

Lemma erase_to_end (A : Type) (v : list A) (first : nat) :
  erase v first (length v) = firstn first v.
Proof.
  unfold erase. rewrite skipn_all. apply app_nil_r.
Qed.


(** ** Surface reconstruction *)

(** C1 (as the code has it): [reconstructPoissonSurface] takes the cloud
    and the output polyhedron only.  Whenever the implicit-function solve
    converges the mesh is refined with the fixed options of the function
    body: angle 20 degrees, radius 30 times the average spacing, distance
    0.375 times the average spacing; when it does not converge no mesh
    generation is started. *)
Theorem reconstruction_criteria_fixed :
  forall point_vectors polyhedron,
    criteria_used h point_vectors polyhedron
    = if solve_converges h point_vectors
      then [ {| angle_bound := FT_of_double 20;
                radius_bound :=
                  FT_mul (FT_of_int 30) (average_spacing_of h point_vectors);
                distance_bound :=
                  FT_mul (FT_of_double 0.375)
                         (average_spacing_of h point_vectors) |} ]
      else [].
Proof.
  intros point_vectors polyhedron.
  unfold criteria_used, reconstructPoissonSurface.
  rewrite trace_map_prog.
  unfold solve_converges, average_spacing_of, points_of,
    reconstructPoissonSurface_body.
  simpl.
  destruct (h _ (convert point_vectors)) as [pv points]; simpl.
  destruct (h _ (compute_implicit_function (h _ (Poisson_function points))))
    as [function converged]; simpl.
  destruct converged; simpl; [ | reflexivity ].
  match goal with
  | |- context [Nat.eqb ?n 0] => destruct (Nat.eqb n 0)
  end; reflexivity.
Qed.

(** C2 (what the code does when the solve fails): the body executes
    [return EXIT_FAILURE] right after the solve, so no mesh generation is
    started and the polyhedron is the one passed in; but the function is
    [void], so what the caller gets back is the pair of objects alone, with
    no error value. *)
Theorem reconstruction_nonconvergence_unreported :
  forall point_vectors polyhedron,
    solve_converges h point_vectors = false ->
    run h (reconstructPoissonSurface_body point_vectors polyhedron)
    = (fst (h _ (convert point_vectors)), polyhedron, Some EXIT_FAILURE)
    /\ run h (reconstructPoissonSurface point_vectors polyhedron)
       = (fst (h _ (convert point_vectors)), polyhedron)
    /\ trace h (reconstructPoissonSurface point_vectors polyhedron)
       = [ Invoked (convert point_vectors);
           Invoked (Poisson_function (points_of h point_vectors));
           Invoked (compute_implicit_function
                      (h _ (Poisson_function (points_of h point_vectors)))) ].
Proof.
  intros point_vectors polyhedron.
  unfold reconstructPoissonSurface.
  rewrite run_map_prog, trace_map_prog.
  unfold solve_converges, points_of, reconstructPoissonSurface_body.
  simpl.
  destruct (h _ (convert point_vectors)) as [pv points]; simpl.
  destruct (h _ (compute_implicit_function (h _ (Poisson_function points))))
    as [function converged]; simpl.
  intros ->. simpl. repeat split.
Qed.

(** ** The filtering stages and their parameters *)


(** C4 (as the code has it): [removeOutliers] hands the neighbourhood size
    to the library as it received it, whatever the size of the cloud: its
    one library call is [remove_outliers] on the whole cloud with the
    caller's [nb_neighbors] and [removed_percentage], and it fails exactly
    when that call throws. *)
Theorem removeOutliers_forwards_neighbors :
  forall points removed_percentage nb_neighbors,
    trace h (removeOutliers points removed_percentage nb_neighbors)
    = [Invoked (remove_outliers points nb_neighbors removed_percentage)]
    /\ (failed
          (snd (run h (removeOutliers points removed_percentage nb_neighbors)))
        <-> failed
              (snd (h _ (remove_outliers points nb_neighbors
                           removed_percentage)))).
Proof.
  intros points removed_percentage nb_neighbors.
  unfold removeOutliers, failed. simpl.
  library_answers.
  - repeat split; intros [e He]; discriminate He.
  - repeat split; intros _; now exists e.
Qed.


(** ** Smoothing *)

Lemma smooth_passes_length (n : nat) :
  jet_smooth_in_place h ->
  forall points nb_neighbors,
    length (fst (run h (smooth_passes n points nb_neighbors)))
    = length points.
Proof.
  intros Hrange.
  induction n as [| m IH]; intros points nb_neighbors; simpl.
  - reflexivity.
  - specialize (Hrange points nb_neighbors).
    destruct (h _ (jet_smooth_point_set points nb_neighbors))
      as [range [u | e]]; simpl in *.
    + rewrite IH. exact Hrange.
    + exact Hrange.
Qed.

(** C6: for every cloud, neighbourhood size and [iter >= 0], [smoothCloud]
    leaves the number of points as it was; with [iter = 0] it makes no
    library call and hands the cloud back unchanged. *)
Theorem smoothCloud_preserves_count :
  forall points nb_neighbors iter,
    jet_smooth_in_place h ->
    (0 <= iter)%Z ->
    length (fst (run h (smoothCloud points nb_neighbors iter)))
    = length points
    /\ run h (smoothCloud points nb_neighbors 0) = (points, Returned tt)
    /\ trace h (smoothCloud points nb_neighbors 0) = [].
Proof.
  intros points nb_neighbors iter Hrange _.
  split; [ | split; reflexivity ].
  unfold smoothCloud. now apply smooth_passes_length.
Qed.

(** ** Normal orientation *)

(** C7: with [trim = true] the cloud [orientNormals] returns is the range
    the orientation left with exactly the unoriented suffix cut off, so it
    is no longer than the input; with [trim = false] it is the whole of
    that range, and the length is the input's. *)
Theorem orientNormals_trim :
  forall points nb_neighbors,
    mst_orient_in_place h ->
    (let '(range, r) := h _ (mst_orient_normals points nb_neighbors) in
     range
     = fst (run h (orientNormals points nb_neighbors true))
       ++ marked_for_removal range r)
    /\ length (fst (run h (orientNormals points nb_neighbors true)))
       <= length points
    /\ fst (run h (orientNormals points nb_neighbors false))
       = fst (h _ (mst_orient_normals points nb_neighbors))
    /\ length (fst (run h (orientNormals points nb_neighbors false)))
       = length points.
Proof.
  intros points nb_neighbors Hrange.
  specialize (Hrange points nb_neighbors).
  unfold orientNormals. simpl.
  destruct (h _ (mst_orient_normals points nb_neighbors))
    as [range [it | e]]; simpl in *.
  - rewrite erase_to_end. split; [ | split; [ | split ] ].
    + symmetry. apply firstn_skipn.
    + rewrite <- Hrange, length_firstn. apply Nat.le_min_r.
    + reflexivity.
    + exact Hrange.
  - split; [ | split; [ | split ] ].
    + symmetry. apply app_nil_r.
    + rewrite Hrange. apply Nat.le_refl.
    + reflexivity.
    + exact Hrange.
Qed.

(** ** Grid simplification *)

Section GridProperties.

Variable Cell : Type.
Variable Cell_eq_dec : forall a b : Cell, {a = b} + {a <> b}.
Variable cell_of : float -> Point_3 -> Cell.

Lemma grid_pass_kept_fixed (epsilon : float) (range : PointList) :
  forall occupied,
    grid_pass Cell_eq_dec cell_of epsilon occupied
      (fst (grid_pass Cell_eq_dec cell_of epsilon occupied range))
    = (fst (grid_pass Cell_eq_dec cell_of epsilon occupied range), []).
Proof.
  induction range as [| p rest IH]; intros occupied; simpl.
  - reflexivity.
  - destruct (in_dec Cell_eq_dec (cell_of epsilon p) occupied) as [Hin | Hout].
    + specialize (IH occupied).
      destruct (grid_pass Cell_eq_dec cell_of epsilon occupied rest)
        as [kept removed]; simpl in *.
      exact IH.
    + specialize (IH (cell_of epsilon p :: occupied)).
      destruct (grid_pass Cell_eq_dec cell_of epsilon
                  (cell_of epsilon p :: occupied) rest)
        as [kept removed]; simpl in *.
      destruct (in_dec Cell_eq_dec (cell_of epsilon p) occupied)
        as [Hin | _]; [contradiction | ].
      now rewrite IH.
Qed.

(** C8: with the grid clustering as the specification describes it, and a
    cell size [s > 0], simplifying the output of [simplifyCloud] again with
    the same cell size gives that output back. *)
Theorem simplifyCloud_idempotent :
  forall points cell_size,
    grid_simplify_as_specified Cell_eq_dec cell_of h ->
    PrimFloat.ltb 0 cell_size = true ->
    run h (simplifyCloud
             (fst (run h (simplifyCloud points cell_size))) cell_size)
    = (fst (run h (simplifyCloud points cell_size)), Returned tt).
Proof.
  intros points cell_size Hspec Hpos.
  assert (Honce : forall range,
             run h (simplifyCloud range cell_size)
             = (fst (grid_pass Cell_eq_dec cell_of cell_size [] range),
                Returned tt)).
  { intros range. unfold simplifyCloud. simpl.
    rewrite (Hspec range cell_size Hpos). unfold grid_simplify_spec.
    destruct (grid_pass Cell_eq_dec cell_of cell_size [] range)
      as [kept removed]; simpl.
    unfold swap_trick. rewrite erase_to_end.
    rewrite firstn_app, firstn_all, Nat.sub_diag. simpl.
    now rewrite app_nil_r. }
  rewrite (Honce points). cbn [fst]. rewrite Honce.
  now rewrite grid_pass_kept_fixed.
Qed.

End GridProperties.

(** ** Normal estimation *)

Lemma resize_length (A : Type) (d : A) (n : nat) (v : list A) :
  length (resize d n v) = n.
Proof.
  unfold resize. rewrite length_app, length_firstn, repeat_length. lia.
Qed.

Create Rewrite HintDb vector_size.
#[local] Hint Rewrite resize_length length_map : vector_size.

Lemma assign_first_length (i : nat) (p : Point_3) (v : PointVectorList) :
  length (assign_first i p v) = length v.
Proof.
  revert i. induction v as [| [q n] t IH]; intros [| j]; simpl;
    try reflexivity.
  now rewrite IH.
Qed.

#[local] Hint Rewrite assign_first_length : vector_size.

Lemma assign_first_positions (p : Point_3) (v : PointVectorList) :
  forall i j,
    i < length v ->
    nth_error (map fst (assign_first i p v)) j
    = if Nat.eqb j i then Some p else nth_error (map fst v) j.
Proof.
  induction v as [| [q n] t IH]; intros i j Hi; simpl in Hi.
  - lia.
  - destruct i as [| i]; destruct j as [| j]; simpl; try reflexivity.
    apply IH. lia.
Qed.

Lemma copy_positions_positions (points : PointList) (n : nat) :
  forall i v j,
    i + n <= length v ->
    nth_error (map fst (copy_positions n i points v)) j
    = if Nat.leb i j && Nat.ltb j (i + n)
      then Some (nth j points Point_3_default)
      else nth_error (map fst v) j.
Proof.
  induction n as [| m IH]; intros i v j Hlen; simpl.
  - replace (Nat.leb i j && Nat.ltb j (i + 0)) with false; [reflexivity | ].
    symmetry. apply andb_false_iff.
    destruct (Nat.leb_spec i j); [right | left; reflexivity].
    apply Nat.ltb_ge. lia.
  - rewrite IH by (autorewrite with vector_size; lia).
    rewrite assign_first_positions by lia.
    destruct (Nat.leb_spec (S i) j), (Nat.leb_spec i j),
      (Nat.ltb_spec j (S i + m)), (Nat.ltb_spec j (i + S m)),
      (Nat.eqb_spec j i); simpl; subst; try reflexivity; lia.
Qed.

(** After [resize] and the copy loop, the positions are the input cloud. *)
Lemma prepared_positions (points : PointList) (v : PointVectorList) :
  map fst
    (copy_positions (length points) 0 points
       (resize (Point_3_default, Vector_3_default) (length points) v))
  = points.
Proof.
  apply nth_error_ext. intros j.
  rewrite copy_positions_positions by (autorewrite with vector_size; lia).
  simpl. destruct (Nat.ltb_spec j (length points)) as [Hlt | Hge].
  - symmetry. now apply nth_error_nth'.
  - transitivity (@None Point_3).
    + apply nth_error_None. autorewrite with vector_size. exact Hge.
    + symmetry. now apply nth_error_None.
Qed.

(** C9: the oriented cloud [estimateNormals] produces has the length of
    the input cloud and carries the input's i-th point as the position of
    its i-th element; the input cloud is a [const] argument and is not
    part of what the function changes. *)
Theorem estimateNormals_positions :
  forall points point_vectors nb_neighbors,
    pca_keeps_positions h ->
    length (fst (run h (estimateNormals points point_vectors nb_neighbors)))
    = length points
    /\ (forall i p,
          nth_error points i = Some p ->
          exists n,
            nth_error
              (fst (run h (estimateNormals points point_vectors nb_neighbors)))
              i
            = Some (p, n))
    /\ map fst
         (fst (run h (estimateNormals points point_vectors nb_neighbors)))
       = points.
Proof.
  intros points point_vectors nb_neighbors Hpos.
  assert (Hmap :
    map fst (fst (run h (estimateNormals points point_vectors nb_neighbors)))
    = points).
  { unfold estimateNormals. simpl.
    match goal with
    | |- context [h _ (pca_estimate_normals ?v ?k)] =>
        specialize (Hpos v k);
        destruct (h _ (pca_estimate_normals v k)) as [range r]
    end.
    simpl in *. rewrite Hpos. apply prepared_positions. }
  split; [ | split; [ | exact Hmap ] ].
  - rewrite <- Hmap at 2. now rewrite length_map.
  - intros i p Hi. rewrite <- Hmap in Hi.
    rewrite nth_error_map in Hi.
    destruct (nth_error _ i) as [[q n] | ]; [ | discriminate Hi ].
    exists n. simpl in Hi. now inversion Hi.
Qed.


End Properties.

(** * The sample library: its interface facts, and runs on concrete clouds *)

Section SampleFacts.

Import Sample.
Open Scope float_scope.

Lemma relax_length (range : list point) : length (relax range) = length range.
Proof.
  induction range as [| p rest IH]; simpl; [reflexivity | ].
  destruct rest as [| q rest']; [reflexivity | ].
  simpl in *. now rewrite IH.
Qed.

Lemma sample_jet_smooth_in_place : jet_smooth_in_place sample_library.
Proof.
  intros range k. apply relax_length.
Qed.

Lemma sample_mst_orient_in_place : mst_orient_in_place sample_library.
Proof.
  intros range k. simpl.
  destruct (partition has_normal range) as [oriented unoriented] eqn:Hp.
  simpl. rewrite length_app. symmetry.
  exact (partition_length has_normal range Hp).
Qed.

Lemma sample_pca_keeps_positions : pca_keeps_positions sample_library.
Proof.
  intros range k. simpl. rewrite map_map. reflexivity.
Qed.


Lemma sample_grid_simplify_as_specified :
  grid_simplify_as_specified cell_eq_dec cell_of sample_library.
Proof.
  intros range epsilon _. reflexivity.
Qed.

(** With the precondition checks compiled in, the rejection of a zero cell
    size comes from the library call, the cloud untouched. *)
Example checking_library_rejects_zero_cell_size :
  run checking_library (simplifyCloud [p000; p100] 0)
  = ([p000; p100], Thrown tt).
Proof. reflexivity. Qed.

(** C1, refuted as stated: on a cloud whose solve converges the mesh is
    refined with angle 20, whatever angle a caller would have chosen. *)
Lemma reconstruction_criteria_not_callers :
  solve_converges sample_library tetrahedron = true
  /\ criteria_used sample_library tetrahedron []
     = [ {| angle_bound := 20; radius_bound := 15;
            distance_bound := 0.1875 |} ]
  /\ ~ criteria_follow_caller sample_library.
Proof.
  split; [reflexivity | split; [reflexivity | ] ].
  intros Hclaim.
  specialize (Hclaim 45 30 0.375 tetrahedron [] eq_refl).
  apply (f_equal (fun cs : list (@Criteria double_kernel) =>
                    match cs with
                    | [c] => PrimFloat.eqb (angle_bound c) 20
                    | _ => false
                    end)) in Hclaim.
  vm_compute in Hclaim. discriminate Hclaim.
Qed.

Lemma reconstruction_nonconvergence_unreported_witness :
  solve_converges sample_library [(p000, up)] = false
  /\ run sample_library (reconstructPoissonSurface_body [(p000, up)] [p001])
     = ([(p000, up)], [p001], Some EXIT_FAILURE)
  /\ run sample_library (reconstructPoissonSurface [(p000, up)] [p001])
     = ([(p000, up)], [p001])
  /\ trace sample_library (reconstructPoissonSurface [(p000, up)] [p001])
     = [ Invoked (convert [(p000, up)]);
         Invoked (Poisson_function [(p000, up)]);
         Invoked (compute_implicit_function [(p000, up)]) ].
Proof.
  split; [reflexivity | ].
  apply (@reconstruction_nonconvergence_unreported double_kernel
           sample_library [(p000, up)] [p001]).
  reflexivity.
Defined.


(** C4, refuted as stated: on a cloud of two points with 24 neighbours
    asked for, the outlier removal runs with [k = 24] and returns
    normally. *)
Lemma removeOutliers_runs_with_large_neighborhood :
  (Z.of_nat (length [p000; p100]) <= 24)%Z
  /\ run sample_library (removeOutliers [p000; p100] 5 24)
     = ([p000], Returned tt)
  /\ trace sample_library (removeOutliers [p000; p100] 5 24)
     = [Invoked (remove_outliers [p000; p100] 24 5)]
  /\ ~ rejects_or_clamps_neighbors sample_library.
Proof.
  split; [simpl; lia | split; [reflexivity | split; [reflexivity | ] ] ].
  intros Hclaim.
  destruct (Hclaim [p000; p100] 5 24%Z ltac:(simpl; lia)) as [[e He] | Hk].
  - vm_compute in He. discriminate He.
  - specialize (Hk [p000; p100] 24%Z 5 (or_introl eq_refl)).
    simpl in Hk. lia.
Qed.

Lemma smoothCloud_preserves_count_witness :
  jet_smooth_in_place sample_library
  /\ (0 <= 2)%Z
  /\ length (fst (run sample_library (smoothCloud [p000; p100; p010] 8 2)))
     = length [p000; p100; p010]
  /\ run sample_library (smoothCloud [p000; p100; p010] 8 0)
     = ([p000; p100; p010], Returned tt)
  /\ trace sample_library (smoothCloud [p000; p100; p010] 8 0) = [].
Proof.
  split; [exact sample_jet_smooth_in_place | split; [lia | ] ].
  apply (@smoothCloud_preserves_count double_kernel sample_library
           [p000; p100; p010] 8%Z 2%Z sample_jet_smooth_in_place).
  lia.
Defined.

Lemma orientNormals_trim_witness :
  mst_orient_in_place sample_library
  /\ fst (run sample_library (orientNormals half_oriented 18 true))
     = [(p000, up); (p010, up)]
  /\ length (fst (run sample_library (orientNormals half_oriented 18 true)))
     <= length half_oriented
  /\ length (fst (run sample_library (orientNormals half_oriented 18 false)))
     = length half_oriented.
Proof.
  split; [exact sample_mst_orient_in_place | split; [reflexivity | ] ].
  pose proof (@orientNormals_trim double_kernel sample_library
                half_oriented 18%Z sample_mst_orient_in_place)
    as [_ [Hle [_ Hlen]]].
  split; [exact Hle | exact Hlen].
Defined.

Lemma simplifyCloud_idempotent_witness :
  grid_simplify_as_specified cell_eq_dec cell_of sample_library
  /\ PrimFloat.ltb 0 1 = true
  /\ fst (run sample_library (simplifyCloud crowded 1)) = [p000; p100; p010]
  /\ run sample_library
       (simplifyCloud (fst (run sample_library (simplifyCloud crowded 1))) 1)
     = (fst (run sample_library (simplifyCloud crowded 1)), Returned tt).
Proof.
  split; [exact sample_grid_simplify_as_specified | ].
  split; [reflexivity | split; [reflexivity | ] ].
  apply (@simplifyCloud_idempotent double_kernel sample_library
           cell cell_eq_dec cell_of crowded 1
           sample_grid_simplify_as_specified).
  reflexivity.
Defined.

Lemma estimateNormals_positions_witness :
  pca_keeps_positions sample_library
  /\ length (fst (run sample_library
                    (estimateNormals [p000; p100; p010] [(p001, no_normal)] 18)))
     = length [p000; p100; p010]
  /\ map fst (fst (run sample_library
                     (estimateNormals [p000; p100; p010]
                        [(p001, no_normal)] 18)))
     = [p000; p100; p010].
Proof.
  split; [exact sample_pca_keeps_positions | ].
  pose proof (@estimateNormals_positions double_kernel sample_library
                [p000; p100; p010] [(p001, no_normal)] 18%Z
                sample_pca_keeps_positions)
    as [Hlen [_ Hmap]].
  split; [exact Hlen | exact Hmap].
Defined.


End SampleFacts.

(** * Further properties of the seven functions *)

Section MoreProperties.

Context {K : Kernel}.
Variable h : handler.
Arguments h : clear implicits.

(** Unfold the reconstruction up to the answer of the solve. *)
Ltac enter_reconstruction :=
  unfold facets_written, meshes_generated, surfaces_used,
    reconstructPoissonSurface;
  rewrite ?run_map_prog, ?trace_map_prog;
  unfold solve_converges, solved_function, average_spacing_of, points_of,
    reconstructPoissonSurface_body;
  simpl;
  match goal with
  | |- context [h _ (convert ?pv)] =>
      let cloud := fresh "cloud" in
      let points := fresh "points" in
      destruct (h _ (convert pv)) as [cloud points]; simpl
  end;
  match goal with
  | |- context [h _ (compute_implicit_function ?f)] =>
      let function := fresh "function" in
      let converged := fresh "converged" in
      destruct (h _ (compute_implicit_function f)) as [function converged];
      simpl
  end.

(** ** Surface reconstruction: the remaining paths *)

(** X1: when the solve converges but the generated mesh has no vertex, the
    body executes the second [return EXIT_FAILURE]: no facet is written,
    the polyhedron is the one passed in, and the caller of the [void]
    function receives the two objects only. *)
Theorem reconstruction_empty_mesh_unreported :
  forall point_vectors polyhedron,
    solve_converges h point_vectors = true ->
    (forall tr0 tr,
       In (tr0, tr) (meshes_generated h point_vectors polyhedron) ->
       h _ (number_of_vertices tr) = 0) ->
    run h (reconstructPoissonSurface_body point_vectors polyhedron)
    = (fst (h _ (convert point_vectors)), polyhedron, Some EXIT_FAILURE)
    /\ run h (reconstructPoissonSurface point_vectors polyhedron)
       = (fst (h _ (convert point_vectors)), polyhedron)
    /\ facets_written h point_vectors polyhedron = [].
Proof.
  intros point_vectors polyhedron.
  enter_reconstruction.
  intros -> Hempty. simpl in *.
  match goal with
  | |- context [Nat.eqb ?n 0] => destruct (Nat.eqb n 0) eqn:Hn
  end; simpl in *.
  - repeat split.
  - apply Nat.eqb_neq in Hn. exfalso. apply Hn.
    eapply Hempty. left. reflexivity.
Qed.


(** X3: whenever the solve converges, the surface handed to the mesh
    generation is the solved function inside a sphere centred at the
    function's inner point, of radius 5 times the radius of the function's
    bounding sphere, with error bound the dichotomy error
    (0.375 * average spacing / 1000) divided by that radius. *)
Theorem reconstruction_surface_domain :
  forall point_vectors polyhedron,
    surfaces_used h point_vectors polyhedron
    = if solve_converges h point_vectors
      then
        let f := solved_function h point_vectors in
        let radius := FT_sqrt (squared_radius (h _ (bounding_sphere f))) in
        let sm_sphere_radius := FT_mul (FT_of_double 5) radius in
        [ {| surface_function := f;
             surface_bounding_sphere :=
               {| center := h _ (get_inner_point f);
                  squared_radius := FT_mul sm_sphere_radius sm_sphere_radius |};
             surface_error_bound :=
               FT_div
                 (FT_div
                    (FT_mul (FT_of_double 0.375)
                       (average_spacing_of h point_vectors))
                    (FT_of_double 1000))
                 sm_sphere_radius |} ]
      else [].
Proof.
  intros point_vectors polyhedron.
  enter_reconstruction.
  destruct converged; simpl; [ | reflexivity ].
  match goal with
  | |- context [Nat.eqb ?n 0] => destruct (Nat.eqb n 0)
  end; reflexivity.
Qed.

(** X4: the reconstruction asks for the average spacing exactly when the
    solve converged, once, over the converted oriented points and with 6
    neighbours. *)
Theorem reconstruction_spacing_request :
  forall point_vectors polyhedron,
    flat_map spacing_of
      (trace h (reconstructPoissonSurface point_vectors polyhedron))
    = if solve_converges h point_vectors
      then [(points_of h point_vectors, 6%Z)]
      else [].
Proof.
  intros point_vectors polyhedron.
  enter_reconstruction.
  destruct converged; simpl; [ | reflexivity ].
  match goal with
  | |- context [Nat.eqb ?n 0] => destruct (Nat.eqb n 0)
  end; reflexivity.
Qed.

(** ** Smoothing: the passes *)

Lemma smooth_passes_add (n m : nat) :
  forall points nb_neighbors,
    run h (smooth_passes (n + m) points nb_neighbors)
    = (let '(cloud, r) := run h (smooth_passes n points nb_neighbors) in
       match r with
       | Returned _ => run h (smooth_passes m cloud nb_neighbors)
       | Thrown e => (cloud, Thrown e)
       end)
    /\ trace h (smooth_passes (n + m) points nb_neighbors)
       = trace h (smooth_passes n points nb_neighbors)
         ++ (let '(cloud, r) := run h (smooth_passes n points nb_neighbors) in
             match r with
             | Returned _ => trace h (smooth_passes m cloud nb_neighbors)
             | Thrown _ => []
             end).
Proof.
  induction n as [| n IH]; intros points nb_neighbors; simpl.
  - split; reflexivity.
  - destruct (h _ (jet_smooth_point_set points nb_neighbors))
      as [range [u | e]]; simpl.
    + destruct (IH range nb_neighbors) as [Hrun Htrace].
      split; [exact Hrun | now rewrite Htrace].
    + split; reflexivity.
Qed.

Lemma smooth_passes_calls (n : nat) :
  forall points nb_neighbors,
    length (trace h (smooth_passes n points nb_neighbors)) <= n
    /\ map snd (flat_map smoothing_of
                  (trace h (smooth_passes n points nb_neighbors)))
       = repeat nb_neighbors
           (length (trace h (smooth_passes n points nb_neighbors)))
    /\ (jet_smooth_returns h ->
        length (trace h (smooth_passes n points nb_neighbors)) = n
        /\ snd (run h (smooth_passes n points nb_neighbors)) = Returned tt).
Proof.
  induction n as [| n IH]; intros points nb_neighbors; simpl.
  - repeat split; reflexivity.
  - pose proof (fun H : jet_smooth_returns h => H points nb_neighbors)
      as Hret.
    destruct (h _ (jet_smooth_point_set points nb_neighbors))
      as [range [u | e]]; simpl in *.
    + destruct (IH range nb_neighbors) as [Hle [Hk Hall]].
      split; [lia | split; [now rewrite Hk | ] ].
      intros Hreturns. destruct (Hall Hreturns) as [Hlen Hout].
      split; [now rewrite Hlen | exact Hout].
    + split; [lia | split; [reflexivity | ] ].
      intros Hreturns. discriminate (Hret Hreturns).
Qed.

Lemma smooth_passes_failure (n : nat) :
  forall points nb_neighbors e,
    snd (run h (smooth_passes n points nb_neighbors)) = Thrown e ->
    exists before range,
      trace h (smooth_passes n points nb_neighbors)
      = before ++ [Invoked (jet_smooth_point_set range nb_neighbors)]
      /\ h _ (jet_smooth_point_set range nb_neighbors)
         = (fst (run h (smooth_passes n points nb_neighbors)), Thrown e).
Proof.
  induction n as [| n IH]; intros points nb_neighbors e; simpl.
  - discriminate.
  - destruct (h _ (jet_smooth_point_set points nb_neighbors))
      as [range [u | e']] eqn:Hanswer; simpl.
    + intros Hfail. destruct (IH range nb_neighbors e Hfail)
        as [before [range' [Htrace Hlast]]].
      exists (Invoked (jet_smooth_point_set points nb_neighbors) :: before),
        range'.
      split; [now rewrite Htrace | exact Hlast].
    + intros Hfail. injection Hfail as ->.
      exists [], points. split; [reflexivity | exact Hanswer].
Qed.

(** X5: an iteration count of zero or below makes [smoothCloud] do
    nothing: no library call, the cloud handed back as it was. *)
Theorem smoothCloud_nonpositive_iter :
  forall points nb_neighbors iter,
    (iter <= 0)%Z ->
    run h (smoothCloud points nb_neighbors iter) = (points, Returned tt)
    /\ trace h (smoothCloud points nb_neighbors iter) = [].
Proof.
  intros points nb_neighbors iter Hiter. unfold smoothCloud.
  replace (Z.to_nat iter) with 0 by lia.
  split; reflexivity.
Qed.

(** X6: smoothing with [a + b] passes is smoothing with [a] passes and,
    when these returned, smoothing their result with [b] passes; when one
    of the first [a] passes throws, the run stops there.  The library
    calls of the long run are those of the two short ones in sequence. *)
Theorem smoothCloud_compose :
  forall points nb_neighbors a b,
    (0 <= a)%Z ->
    (0 <= b)%Z ->
    run h (smoothCloud points nb_neighbors (a + b))
    = (let '(cloud, r) := run h (smoothCloud points nb_neighbors a) in
       match r with
       | Returned _ => run h (smoothCloud cloud nb_neighbors b)
       | Thrown e => (cloud, Thrown e)
       end)
    /\ trace h (smoothCloud points nb_neighbors (a + b))
       = trace h (smoothCloud points nb_neighbors a)
         ++ (let '(cloud, r) := run h (smoothCloud points nb_neighbors a) in
             match r with
             | Returned _ => trace h (smoothCloud cloud nb_neighbors b)
             | Thrown _ => []
             end).
Proof.
  intros points nb_neighbors a b Ha Hb. unfold smoothCloud.
  rewrite Z2Nat.inj_add by assumption.
  apply smooth_passes_add.
Qed.

(** X7: when no smoothing pass throws, [smoothCloud] makes exactly
    [max iter 0] library calls, every one of them a smoothing pass with the
    caller's neighbourhood size, and returns normally. *)
Theorem smoothCloud_pass_count :
  forall points nb_neighbors iter,
    jet_smooth_returns h ->
    length (trace h (smoothCloud points nb_neighbors iter)) = Z.to_nat iter
    /\ map snd (flat_map smoothing_of
                  (trace h (smoothCloud points nb_neighbors iter)))
       = repeat nb_neighbors (Z.to_nat iter)
    /\ snd (run h (smoothCloud points nb_neighbors iter)) = Returned tt.
Proof.
  intros points nb_neighbors iter Hreturns. unfold smoothCloud.
  destruct (smooth_passes_calls (Z.to_nat iter) points nb_neighbors)
    as [_ [Hk Hall]].
  destruct (Hall Hreturns) as [Hlen Hout].
  split; [exact Hlen | split; [ | exact Hout ] ].
  now rewrite Hk, Hlen.
Qed.

(** X13: when [smoothCloud] fails, its last library call is the smoothing
    pass that threw: the exception is that pass's, the cloud is the range
    as that pass left it, and no pass follows. *)
Theorem smoothCloud_failure :
  forall points nb_neighbors iter e,
    snd (run h (smoothCloud points nb_neighbors iter)) = Thrown e ->
    exists before range,
      trace h (smoothCloud points nb_neighbors iter)
      = before ++ [Invoked (jet_smooth_point_set range nb_neighbors)]
      /\ h _ (jet_smooth_point_set range nb_neighbors)
         = (fst (run h (smoothCloud points nb_neighbors iter)), Thrown e).
Proof.
  intros points nb_neighbors iter e. unfold smoothCloud.
  apply smooth_passes_failure.
Qed.

(** ** The filters never add a point *)

Lemma retained_of_permuted (A : Type) (points range : list A) (it : nat) :
  Permutation range points ->
  Permutation points (erase range it (length range) ++ skipn it range)
  /\ length (erase range it (length range)) <= length points
  /\ (forall p, In p (erase range it (length range)) -> In p points).
Proof.
  intros Hperm. rewrite erase_to_end.
  split; [ | split ].
  - rewrite firstn_skipn. now apply Permutation_sym.
  - rewrite <- (Permutation_length Hperm), length_firstn.
    apply Nat.le_min_r.
  - intros p Hin. apply (Permutation_in p Hperm).
    rewrite <- (firstn_skipn it range). apply in_or_app. now left.
Qed.

Lemma removeOutliers_never_adds_length :
  forall points removed_percentage nb_neighbors,
    remove_outliers_permutes h ->
    length (fst (run h (removeOutliers points removed_percentage nb_neighbors)))
    <= length points.
Proof.
  intros points removed_percentage nb_neighbors Hperm.
  specialize (Hperm points nb_neighbors removed_percentage).
  unfold removeOutliers, swap_trick. simpl.
  destruct (h _ (remove_outliers points nb_neighbors removed_percentage))
    as [range [it | e]]; simpl in *.
  - now apply (retained_of_permuted it Hperm).
  - now rewrite (Permutation_length Hperm).
Qed.

Lemma simplifyCloud_never_adds_length :
  forall points cell_size,
    grid_simplify_permutes h ->
    length (fst (run h (simplifyCloud points cell_size))) <= length points.
Proof.
  intros points cell_size Hperm.
  specialize (Hperm points cell_size).
  unfold simplifyCloud, swap_trick. simpl.
  destruct (h _ (grid_simplify_point_set points cell_size))
    as [range [it | e]]; simpl in *.
  - now apply (retained_of_permuted it Hperm).
  - now rewrite (Permutation_length Hperm).
Qed.

(** X8: when the outlier routine only reorders the range, the cloud
    [removeOutliers] leaves together with the points the routine marked is
    a rearrangement of the input: the cloud is no longer than the input and
    every point of it is a point of the input. *)
Theorem removeOutliers_never_adds :
  forall points removed_percentage nb_neighbors,
    remove_outliers_permutes h ->
    Permutation points
      (fst (run h (removeOutliers points removed_percentage nb_neighbors))
       ++ marked_for_removal
            (fst (h _ (remove_outliers points nb_neighbors
                         removed_percentage)))
            (snd (h _ (remove_outliers points nb_neighbors
                         removed_percentage))))
    /\ length
         (fst (run h (removeOutliers points removed_percentage nb_neighbors)))
       <= length points
    /\ (forall p,
          In p (fst (run h (removeOutliers points removed_percentage
                              nb_neighbors))) ->
          In p points).
Proof.
  intros points removed_percentage nb_neighbors Hperm.
  specialize (Hperm points nb_neighbors removed_percentage).
  unfold removeOutliers, swap_trick. simpl.
  destruct (h _ (remove_outliers points nb_neighbors removed_percentage))
    as [range [it | e]]; simpl in *.
  - now apply retained_of_permuted.
  - rewrite app_nil_r. split; [ | split ].
    + now apply Permutation_sym.
    + now rewrite (Permutation_length Hperm).
    + intros p. apply (Permutation_in p Hperm).
Qed.

(** X9: the same for [simplifyCloud]: when the grid routine only reorders
    the range, the simplified cloud is no longer than the input and is made
    of points of the input. *)
Theorem simplifyCloud_never_adds :
  forall points cell_size,
    grid_simplify_permutes h ->
    Permutation points
      (fst (run h (simplifyCloud points cell_size))
       ++ marked_for_removal
            (fst (h _ (grid_simplify_point_set points cell_size)))
            (snd (h _ (grid_simplify_point_set points cell_size))))
    /\ length (fst (run h (simplifyCloud points cell_size)))
       <= length points
    /\ (forall p,
          In p (fst (run h (simplifyCloud points cell_size))) ->
          In p points).
Proof.
  intros points cell_size Hperm.
  specialize (Hperm points cell_size).
  unfold simplifyCloud, swap_trick. simpl.
  destruct (h _ (grid_simplify_point_set points cell_size))
    as [range [it | e]]; simpl in *.
  - now apply retained_of_permuted.
  - rewrite app_nil_r. split; [ | split ].
    + now apply Permutation_sym.
    + now rewrite (Permutation_length Hperm).
    + intros p. apply (Permutation_in p Hperm).
Qed.

(** ** Normal estimation: what reaches the library *)

Lemma assign_first_normals (p : Point_3) (v : PointVectorList) :
  forall i, map snd (assign_first i p v) = map snd v.
Proof.
  induction v as [| [q n] t IH]; intros [| j]; simpl; try reflexivity.
  now rewrite IH.
Qed.

Lemma copy_positions_normals (points : PointList) (n : nat) :
  forall i v, map snd (copy_positions n i points v) = map snd v.
Proof.
  induction n as [| m IH]; intros i v; simpl; [reflexivity | ].
  now rewrite IH, assign_first_normals.
Qed.

Lemma resize_map (A B : Type) (f : A -> B) (d : A) (n : nat) (v : list A) :
  map f (resize d n v) = resize (f d) n (map f v).
Proof.
  unfold resize.
  now rewrite map_app, map_repeat, <- firstn_map, length_map.
Qed.

Lemma combine_projections (A B : Type) (l : list (A * B)) :
  combine (map fst l) (map snd l) = l.
Proof.
  induction l as [| [a b] t IH]; simpl; [reflexivity | now rewrite IH].
Qed.

(** X10: [estimateNormals] makes one library call, the normal estimation
    with the caller's neighbourhood size, on a list of exactly
    [points.size()] elements: the i-th element is the i-th input point
    with the normal the output list held at i before the call, or [Vector_3()]
    where the list was shorter.  What the function leaves and reports is
    that call's answer. *)
Theorem estimateNormals_library_input :
  forall points point_vectors nb_neighbors,
    trace h (estimateNormals points point_vectors nb_neighbors)
    = [ Invoked
          (pca_estimate_normals
             (combine points
                (resize Vector_3_default (length points)
                   (map snd point_vectors)))
             nb_neighbors) ]
    /\ run h (estimateNormals points point_vectors nb_neighbors)
       = h _ (pca_estimate_normals
                (combine points
                   (resize Vector_3_default (length points)
                      (map snd point_vectors)))
                nb_neighbors).
Proof.
  intros points point_vectors nb_neighbors.
  assert (Hprepared :
    copy_positions (length points) 0 points
      (resize (Point_3_default, Vector_3_default) (length points)
         point_vectors)
    = combine points
        (resize Vector_3_default (length points) (map snd point_vectors))).
  { rewrite <- (combine_projections (copy_positions _ _ _ _)).
    now rewrite prepared_positions, copy_positions_normals, resize_map. }
  unfold estimateNormals. simpl. rewrite Hprepared.
  destruct (h _ (pca_estimate_normals _ nb_neighbors)) as [range r].
  split; reflexivity.
Qed.

(** ** Normal orientation: when trimming changes nothing *)

(** X11: when the orientation marks no point as unoriented (or throws),
    [orientNormals] with and without [trim] end the same way. *)
Theorem orientNormals_trim_without_marked :
  forall points nb_neighbors,
    marked_for_removal
      (fst (h _ (mst_orient_normals points nb_neighbors)))
      (snd (h _ (mst_orient_normals points nb_neighbors))) = [] ->
    run h (orientNormals points nb_neighbors true)
    = run h (orientNormals points nb_neighbors false).
Proof.
  intros points nb_neighbors. unfold orientNormals. simpl.
  destruct (h _ (mst_orient_normals points nb_neighbors))
    as [range [it | e]]; simpl; [ | reflexivity ].
  intros Hnone. rewrite erase_to_end.
  rewrite <- (firstn_skipn it range) at 2.
  now rewrite Hnone, app_nil_r.
Qed.

(** ** The stages in sequence *)

(** X12: run in the canonical order (outlier removal, grid
    simplification, smoothing, normal estimation, orientation) over a
    library that keeps to its interface, the stages never grow the cloud:
    the oriented cloud at the end is no longer than the cloud at the start,
    and every position the estimation works on is a point of the smoothed
    cloud in its order. *)
Theorem stages_never_grow :
  forall points removed_percentage k1 cell_size k2 iter prior k3 k4 trim,
    remove_outliers_permutes h ->
    grid_simplify_permutes h ->
    jet_smooth_in_place h ->
    pca_keeps_positions h ->
    mst_orient_in_place h ->
    let filtered := fst (run h (removeOutliers points removed_percentage k1)) in
    let simplified := fst (run h (simplifyCloud filtered cell_size)) in
    let smoothed := fst (run h (smoothCloud simplified k2 iter)) in
    let estimated := fst (run h (estimateNormals smoothed prior k3)) in
    let oriented := fst (run h (orientNormals estimated k4 trim)) in
    length simplified <= length filtered
    /\ length filtered <= length points
    /\ length smoothed = length simplified
    /\ map fst estimated = smoothed
    /\ length oriented <= length points.
Proof.
  intros points removed_percentage k1 cell_size k2 iter prior k3 k4 trim
    Hremove Hgrid Hjet Hpca Hmst.
  intros filtered simplified smoothed estimated oriented.
  assert (H1 : length filtered <= length points)
    by apply (removeOutliers_never_adds_length _ _ _ Hremove).
  assert (H2 : length simplified <= length filtered)
    by apply (simplifyCloud_never_adds_length _ _ Hgrid).
  assert (H3 : length smoothed = length simplified)
    by (unfold smoothed, smoothCloud; now apply smooth_passes_length).
  assert (H4 : map fst estimated = smoothed).
  { unfold estimated, estimateNormals. simpl.
    match goal with
    | |- context [h _ (pca_estimate_normals ?v ?k)] =>
        specialize (Hpca v k);
        destruct (h _ (pca_estimate_normals v k)) as [range r]
    end.
    simpl in *. rewrite Hpca. apply prepared_positions. }
  assert (H5 : length oriented <= length estimated).
  { unfold oriented, orientNormals. simpl.
    specialize (Hmst estimated k4).
    destruct (h _ (mst_orient_normals estimated k4)) as [range [it | e]];
      simpl in *.
    - destruct trim; simpl.
      + rewrite erase_to_end, length_firstn, <- Hmst. apply Nat.le_min_r.
      + now rewrite Hmst.
    - now rewrite Hmst. }
  assert (H6 : length estimated = length smoothed)
    by (rewrite <- H4; now rewrite length_map).
  repeat split; try assumption. lia.
Qed.

End MoreProperties.

(** * The sample library again: runs for the further properties *)

Section MoreSampleFacts.

Import Sample.
Open Scope float_scope.

Lemma grid_pass_permutation (epsilon : float) (range : list point) :
  forall occupied,
    Permutation
      (fst (grid_pass cell_eq_dec cell_of epsilon occupied range)
       ++ snd (grid_pass cell_eq_dec cell_of epsilon occupied range))
      range.
Proof.
  induction range as [| p rest IH]; intros occupied; simpl.
  - constructor.
  - destruct (in_dec cell_eq_dec (cell_of epsilon p) occupied).
    + specialize (IH occupied).
      destruct (@grid_pass double_kernel _ cell_eq_dec cell_of epsilon
                  occupied rest)
        as [kept removed]; simpl in *.
      apply Permutation_sym, Permutation_cons_app, Permutation_sym, IH.
    + specialize (IH (cell_of epsilon p :: occupied)).
      destruct (@grid_pass double_kernel _ cell_eq_dec cell_of epsilon
                  (cell_of epsilon p :: occupied) rest)
        as [kept removed]; simpl in *.
      now constructor.
Qed.

Lemma sample_remove_outliers_permutes : remove_outliers_permutes sample_library.
Proof.
  intros range k threshold_percent. apply Permutation_refl.
Qed.

Lemma sample_grid_simplify_permutes : grid_simplify_permutes sample_library.
Proof.
  intros range epsilon. simpl. unfold grid_simplify_spec.
  pose proof (grid_pass_permutation epsilon range []) as Hperm.
  destruct (@grid_pass double_kernel _ cell_eq_dec cell_of epsilon [] range)
    as [kept removed]; simpl in *.
  exact Hperm.
Qed.

Lemma sample_jet_smooth_returns : jet_smooth_returns sample_library.
Proof.
  intros range k. reflexivity.
Qed.

Lemma reconstruction_empty_mesh_unreported_witness :
  solve_converges barren_library tetrahedron = true
  /\ run barren_library (reconstructPoissonSurface_body tetrahedron [p001])
     = (tetrahedron, [p001], Some EXIT_FAILURE)
  /\ run barren_library (reconstructPoissonSurface tetrahedron [p001])
     = (tetrahedron, [p001])
  /\ facets_written barren_library tetrahedron [p001] = [].
Proof.
  split; [reflexivity | ].
  apply (@reconstruction_empty_mesh_unreported double_kernel barren_library
           tetrahedron [p001]).
  - reflexivity.
  - intros tr0 tr Hin. simpl in Hin.
    destruct Hin as [Heq | []]. inversion Heq. reflexivity.
Defined.

Lemma smoothCloud_nonpositive_iter_witness :
  (-3 <= 0)%Z
  /\ run sample_library (smoothCloud [p000; p100; p010] 8 (-3))
     = ([p000; p100; p010], Returned tt)
  /\ trace sample_library (smoothCloud [p000; p100; p010] 8 (-3)) = [].
Proof.
  split; [lia | ].
  apply (@smoothCloud_nonpositive_iter double_kernel sample_library
           [p000; p100; p010] 8%Z (-3)%Z).
  lia.
Defined.

Lemma smoothCloud_failure_witness :
  snd (run brittle_library (smoothCloud crowded 8 3)) = Thrown tt
  /\ exists before range,
       trace brittle_library (smoothCloud crowded 8 3)
       = before ++ [Invoked (jet_smooth_point_set range 8)]
       /\ brittle_library (jet_smooth_point_set range 8)
          = (fst (run brittle_library (smoothCloud crowded 8 3)), Thrown tt).
Proof.
  split; [reflexivity | ].
  apply (@smoothCloud_failure double_kernel brittle_library
           crowded 8%Z 3%Z tt).
  reflexivity.
Defined.

Lemma smoothCloud_compose_witness :
  (0 <= 1)%Z /\ (0 <= 2)%Z /\
  run sample_library (smoothCloud [p000; p100; p010] 8 (1 + 2))
  = run sample_library
      (smoothCloud
         (fst (run sample_library (smoothCloud [p000; p100; p010] 8 1))) 8 2).
Proof.
  split; [lia | split; [lia | ] ].
  exact (proj1 (@smoothCloud_compose double_kernel sample_library
                  [p000; p100; p010] 8%Z 1%Z 2%Z
                  ltac:(lia) ltac:(lia))).
Defined.

Lemma smoothCloud_pass_count_witness :
  jet_smooth_returns sample_library
  /\ length (trace sample_library (smoothCloud [p000; p100; p010] 8 4))
     = 4%nat
  /\ map snd (flat_map smoothing_of
                (trace sample_library (smoothCloud [p000; p100; p010] 8 4)))
     = [8; 8; 8; 8]%Z
  /\ snd (run sample_library (smoothCloud [p000; p100; p010] 8 4))
     = Returned tt.
Proof.
  split; [exact sample_jet_smooth_returns | ].
  apply (@smoothCloud_pass_count double_kernel sample_library
           [p000; p100; p010] 8%Z 4%Z sample_jet_smooth_returns).
Defined.

Lemma removeOutliers_never_adds_witness :
  remove_outliers_permutes sample_library
  /\ length (fst (run sample_library (removeOutliers crowded 25 24)))
     <= length crowded
  /\ fst (run sample_library (removeOutliers crowded 25 24))
     = [p000; p100; (0.5, 0.5, 0.5)].
Proof.
  split; [exact sample_remove_outliers_permutes | ].
  split; [ | reflexivity ].
  exact (proj1 (proj2 (@removeOutliers_never_adds double_kernel
                         sample_library crowded 25 24%Z
                         sample_remove_outliers_permutes))).
Defined.

Lemma simplifyCloud_never_adds_witness :
  grid_simplify_permutes sample_library
  /\ length (fst (run sample_library (simplifyCloud crowded 1)))
     <= length crowded
  /\ (forall p,
        In p (fst (run sample_library (simplifyCloud crowded 1))) ->
        In p crowded).
Proof.
  split; [exact sample_grid_simplify_permutes | ].
  exact (proj2 (@simplifyCloud_never_adds double_kernel sample_library
                  crowded 1 sample_grid_simplify_permutes)).
Defined.

Lemma orientNormals_trim_without_marked_witness :
  marked_for_removal
    (fst (sample_library (mst_orient_normals tetrahedron 18)))
    (snd (sample_library (mst_orient_normals tetrahedron 18))) = []
  /\ run sample_library (orientNormals tetrahedron 18 true)
     = run sample_library (orientNormals tetrahedron 18 false).
Proof.
  split; [reflexivity | ].
  apply (@orientNormals_trim_without_marked double_kernel sample_library
           tetrahedron 18%Z).
  reflexivity.
Defined.

Lemma stages_never_grow_witness :
  length
    (fst (run sample_library
            (orientNormals
               (fst (run sample_library
                       (estimateNormals
                          (fst (run sample_library
                                  (smoothCloud
                                     (fst (run sample_library
                                             (simplifyCloud
                                                (fst (run sample_library
                                                        (removeOutliers crowded
                                                           25 24)))
                                                1)))
                                     8 2)))
                          [] 18)))
               18 true)))
  <= length crowded.
Proof.
  exact (proj2 (proj2 (proj2 (proj2
    (@stages_never_grow double_kernel sample_library
       crowded 25 24%Z 1 8%Z 2%Z [] 18%Z 18%Z true
       sample_remove_outliers_permutes sample_grid_simplify_permutes
       sample_jet_smooth_in_place sample_pca_keeps_positions
       sample_mst_orient_in_place))))).
Defined.

End MoreSampleFacts.
